(** * Frontend/app.js: the web tier of the two-tier application

    A shallow embedding of [app.js] and the properties of its one route.

    The script does three things when it is loaded: it creates one MySQL
    connection object, registers one handler for [GET /], and starts
    listening on [PORT].  The handler sends one fixed query and, in the
    query's callback, either rethrows the error or sends the [message]
    column of the first row.

    JavaScript values, property access and truthiness are modelled in
    [Js]; calls to the libraries ([mysql], [express], [console]) are the
    nodes of an action tree ([Act]) whose callbacks are Rocq functions;
    [exec] runs such a tree against the program's state and a database
    oracle and yields the trace of observable events.

    The libraries are the ones the repository's image can run: the
    README builds the web tier on [node:14], so the framework is
    express 4 (with its [fresh] and [res.send]) and the client is the
    [mysql] package, which connects on the first query. *)

From Stdlib Require Import ZArith List String Ascii Bool Lia.
From Stdlib Require Import DecimalString.
Import ListNotations.
Open Scope string_scope.

#[local] Set Warnings "-register-all".

(** ** JavaScript values *)

Module Js.

Inductive value : Type :=
| Undefined
| Null
| Boolean (b : bool)
| Num (z : Z)
| Str (s : string)
| Obj (fields : list (string * value))
| Arr (items : list value).

(** ToBoolean, as [if (err)] applies it. *)
Definition truthy (v : value) : bool :=
  match v with
  | Undefined | Null => false
  | Boolean b => b
  | Num z => negb (z =? 0)%Z
  | Str s => negb (s =? "")
  | Obj _ | Arr _ => true
  end.

(** A property key: [results[0]] uses [Index 0], [.message] uses
    [Name "message"]. *)
Inductive key : Type :=
| Index (n : nat)
| Name (s : string).

Definition key_string (k : key) : string :=
  match k with
  | Index n => NilZero.string_of_uint (Nat.to_uint n)
  | Name s => s
  end.

(** The result of evaluating an expression: a value, or a thrown one. *)
Inductive completion (A : Type) : Type :=
| Normal (a : A)
| Abrupt (thrown : value).
Arguments Normal {A} a.
Arguments Abrupt {A} thrown.

Definition bind {A B : Type} (c : completion A) (f : A -> completion B)
  : completion B :=
  match c with
  | Normal a => f a
  | Abrupt e => Abrupt e
  end.

(** The exception raised by a property read on [undefined] or [null]. *)
Definition TypeError : value := Obj [("name", Str "TypeError")].

Fixpoint lookup (k : string) (fields : list (string * value)) : option value :=
  match fields with
  | [] => None
  | (k', v) :: rest => if (k' =? k) then Some v else lookup k rest
  end.

Definition or_undefined (o : option value) : value :=
  match o with
  | Some v => v
  | None => Undefined
  end.

Definition char_at (s : string) (n : nat) : option value :=
  match String.get n s with
  | Some c => Some (Str (String c EmptyString))
  | None => None
  end.

(** [v[k]] and [v.k]: a read of an own property.  Reading from
    [undefined] or [null] throws; a missing property is [undefined]. *)
Definition get (v : value) (k : key) : completion value :=
  match v with
  | Undefined | Null => Abrupt TypeError
  | Boolean _ | Num _ => Normal Undefined
  | Str s =>
      match k with
      | Index n => Normal (or_undefined (char_at s n))
      | Name "length" => Normal (Num (Z.of_nat (String.length s)))
      | Name _ => Normal Undefined
      end
  | Obj fields => Normal (or_undefined (lookup (key_string k) fields))
  | Arr items =>
      match k with
      | Index n => Normal (or_undefined (nth_error items n))
      | Name "length" => Normal (Num (Z.of_nat (List.length items)))
      | Name _ => Normal Undefined
      end
  end.

(** Number to string, as a template literal does for an integer. *)
Definition number_to_string (z : Z) : string :=
  NilZero.string_of_int (Z.to_int z).

End Js.

Notation "x <- c ;; f" := (Js.bind c (fun x => f))
  (at level 61, c at next level, right associativity).

(** ** The libraries' objects, as the script sees them *)

(** The argument of [mysql.createConnection]. *)
Record ConnectionConfig : Type := {
  host : string;
  user : string;
  password : string;
  database : string
}.

(** A connection object is known by the order of its creation. *)
Definition Connection : Type := nat.

Inductive Method : Type := GET | HEAD | POST | PUT | DELETE.

(** A request as Node hands it over: [path] is the path without the
    query string, [headers] has lower-case names, one entry per name. *)
Record Request : Type := {
  method : Method;
  path : string;
  query : list (string * string);
  headers : list (string * string);
  body : string
}.

(** The response object handed to a handler. *)
Record Response : Type := {
  statusCode : Z
}.

(** Node creates every response with status code 200. *)
Definition new_response : Response := {| statusCode := 200 |}.

(** [statusCode |= 0], the first step of Node's [writeHead]. *)
Definition to_int32 (z : Z) : Z :=
  ((z + 2147483648) mod 4294967296 - 2147483648)%Z.

(** The status code [res.send(v)] works with: express 4 takes a number
    as the status code ([res.send(status)]), and otherwise keeps the one
    of the response object. *)
Definition status_of_send (res : Response) (v : Js.value) : Z :=
  match v with
  | Js.Num z => z
  | _ => statusCode res
  end.

(** The exception of Node's [writeHead] for a status code outside
    100..999. *)
Definition RangeError : Js.value :=
  Js.Obj [("name", Js.Str "RangeError");
          ("code", Js.Str "ERR_HTTP_INVALID_STATUS_CODE")].

(** What [res.send(v)] throws, if anything.  A fresh conditional request
    only turns a 2xx status into 304, so the request plays no part. *)
Definition send_throws (res : Response) (v : Js.value) : option Js.value :=
  let code := to_int32 (status_of_send res v) in
  if ((code <? 100) || (999 <? code))%Z then Some RangeError else None.

(** What the script does, with the callbacks it passes to the libraries. *)
Inductive Act : Type :=
| Return
| Throw (e : Js.value)
| CreateConnection (cfg : ConnectionConfig) (k : Connection -> Act)
| Query (c : Connection) (sql : string) (cb : Js.value -> Js.value -> Act)
| Get (route : string) (h : Request -> Response -> Act) (k : Act)
| Listen (port : Z) (cb : Act)
| ConsoleLog (msg : string) (k : Act)
| Send (res : Response) (v : Js.value) (k : Act).

Record Route : Type := {
  route_method : Method;
  route_path : string;
  route_handler : Request -> Response -> Act
}.

(** The state of the running script.  [connections] lists the connection
    objects in the order of their creation; [connect_called] lists the
    ones that have been told to connect. *)
Record State : Type := {
  connections : list ConnectionConfig;
  connect_called : list Connection;
  routes : list Route;
  listening : option Z;
  console : list string
}.

Definition initial_state : State :=
  {| connections := []; connect_called := [];
     routes := []; listening := None; console := [] |}.

(** What can be observed from outside the script. *)
Inductive Event : Type :=
| EvQuery (c : Connection) (sql : string)
| EvSend (res : Response) (v : Js.value)
| EvThrow (e : Js.value)
| EvNoRoute.

Definition Trace : Type := list Event.

(** The answer of the database tier to a query: the two arguments
    [(err, results)] with which the [mysql] library calls the callback. *)
Definition Reply : Type := (Js.value * Js.value)%type.
Definition Database : Type := Connection -> string -> Reply.

(** [createConnection] does not connect; the first [query] on a
    connection does (the implicit connect of the [mysql] client). *)
Definition mark_connected (c : Connection) (st : State) : State :=
  {| connections := connections st;
     connect_called :=
       if existsb (Nat.eqb c) (connect_called st) then connect_called st
       else connect_called st ++ [c];
     routes := routes st;
     listening := listening st;
     console := console st |}.

(** [exec] runs an action tree.  A [Throw] ends the run: the script never
    catches an exception.  The callback of a query is run with the answer
    of the database; it is the part of the request that happens when the
    answer arrives. *)
Fixpoint exec (dbms : Database) (a : Act) (st : State) : Trace * State :=
  match a with
  | Return => ([], st)
  | Throw e => ([EvThrow e], st)
  | CreateConnection cfg k =>
      exec dbms (k (List.length (connections st)))
        {| connections := connections st ++ [cfg];
           connect_called := connect_called st;
           routes := routes st;
           listening := listening st;
           console := console st |}
  | Query c sql cb =>
      let '(err, results) := dbms c sql in
      let '(tr, st') := exec dbms (cb err results) (mark_connected c st) in
      (EvQuery c sql :: tr, st')
  | Get route h k =>
      exec dbms k
        {| connections := connections st;
           connect_called := connect_called st;
           routes := routes st ++
             [{| route_method := GET; route_path := route; route_handler := h |}];
           listening := listening st;
           console := console st |}
  | Listen port cb =>
      exec dbms cb
        {| connections := connections st;
           connect_called := connect_called st;
           routes := routes st;
           listening := Some port;
           console := console st |}
  | ConsoleLog msg k =>
      exec dbms k
        {| connections := connections st;
           connect_called := connect_called st;
           routes := routes st;
           listening := listening st;
           console := console st ++ [msg] |}
  | Send res v k =>
      match send_throws res v with
      | Some e => ([EvSend res v; EvThrow e], st)
      | None =>
          let '(tr, st') := exec dbms k st in
          (EvSend res v :: tr, st')
      end
  end.

(** ** app.js *)

Definition PORT : Z := 3000.

Definition db_config : ConnectionConfig :=
  {| host := "db"; user := "myuser"; password := "mypassword"; database := "mydb" |}.

Definition dquote : string := String (ascii_of_nat 34) EmptyString.

(** The string between the double quotes of the query. *)
Definition WELCOME : string := "Welcome to the 2-tier Dockerized App".

(** The first argument of [db.query]. *)
Definition QUERY : string := "SELECT " ++ dquote ++ WELCOME ++ dquote ++ " AS message".

(** [(err, results) => { if (err) throw err; res.send(results[0].message); }] *)
Definition query_callback (res : Response) (err results : Js.value) : Act :=
  if Js.truthy err then Throw err
  else
    match (row <- Js.get results (Js.Index 0) ;; Js.get row (Js.Name "message")) with
    | Js.Normal message => Send res message Return
    | Js.Abrupt e => Throw e
    end.

(** [(req, res) => { db.query(..., ...); }] *)
Definition handler (db : Connection) (req : Request) (res : Response) : Act :=
  Query db QUERY (query_callback res).

(** The environment variables of the process. *)
Definition Environ : Type := string -> option string.

(** The whole script, top to bottom. *)
Definition main (env : Environ) : Act :=
  CreateConnection db_config (fun db =>
  Get "/" (handler db) (
  Listen PORT (
  ConsoleLog ("Frontend running on http://localhost:" ++ Js.number_to_string PORT)
  Return))).

(** ** The database tier

    The MySQL server is a separate container; the script only sees its
    answers.  For the one statement form the script sends, a [SELECT] of a
    double-quoted string literal under a column alias and with no [FROM],
    the server reads no table and answers with one row that has one
    column, named by the alias and holding the literal. *)

Module MySql.

Fixpoint strip_prefix (p s : string) : option string :=
  match p with
  | EmptyString => Some s
  | String a p' =>
      match s with
      | EmptyString => None
      | String b s' => if Ascii.eqb a b then strip_prefix p' s' else None
      end
  end.

(** The characters up to the closing double quote, and what follows it.
    A backslash (an escape sequence) is outside the form. *)
Fixpoint take_literal (s : string) : option (string * string) :=
  match s with
  | EmptyString => None
  | String c rest =>
      if Ascii.eqb c (ascii_of_nat 34) then Some (EmptyString, rest)
      else if Ascii.eqb c (ascii_of_nat 92) then None
      else
        match take_literal rest with
        | Some (lit, rest') => Some (String c lit, rest')
        | None => None
        end
  end.

Definition is_ident_char (c : ascii) : bool :=
  let n := nat_of_ascii c in
  (((97 <=? n) && (n <=? 122)) || ((65 <=? n) && (n <=? 90))
   || ((48 <=? n) && (n <=? 57)) || (n =? 95))%nat.

Fixpoint all_chars (f : ascii -> bool) (s : string) : bool :=
  match s with
  | EmptyString => true
  | String c rest => f c && all_chars f rest
  end.

Definition is_identifier (s : string) : bool :=
  negb (s =? "")%string && all_chars is_ident_char s.

(** [SELECT "literal" AS alias]: the literal and the alias. *)
Definition parse_select_literal (sql : string) : option (string * string) :=
  match strip_prefix "SELECT " sql with
  | None => None
  | Some s1 =>
      match strip_prefix (String (ascii_of_nat 34) EmptyString) s1 with
      | None => None
      | Some s2 =>
          match take_literal s2 with
          | None => None
          | Some (lit, s3) =>
              match strip_prefix " AS " s3 with
              | None => None
              | Some alias =>
                  if is_identifier alias then Some (lit, alias) else None
              end
          end
      end
  end.

(** The rows of a literal select, as the [mysql] library hands them to
    the callback: an array of row objects keyed by column name. *)
Definition select_literal (sql : string) : option Js.value :=
  match parse_select_literal sql with
  | Some (lit, alias) => Some (Js.Arr [Js.Obj [(alias, Js.Str lit)]])
  | None => None
  end.

(** The answers the callback can receive for a literal select: the rows
    with a [null] error when the query succeeds, an error object and no
    rows when it fails (server unreachable, access denied, ...). *)
Inductive answers (sql : string) : Reply -> Prop :=
| answer_rows (rows : Js.value) :
    select_literal sql = Some rows ->
    answers sql (Js.Null, rows)
| answer_error (fields : list (string * Js.value)) :
    answers sql (Js.Obj fields, Js.Undefined).

End MySql.

(** ** The web framework *)

Definition method_eqb (a b : Method) : bool :=
  match a, b with
  | GET, GET | HEAD, HEAD | POST, POST | PUT, PUT | DELETE, DELETE => true
  | _, _ => false
  end.

(** The method a route is looked up with: express answers a HEAD request
    through the GET route when, as here, no HEAD route is registered. *)
Definition routed_method (m : Method) : Method :=
  match m with
  | HEAD => GET
  | _ => m
  end.

(** A route answers the requests of its method and path; the query string
    and the headers play no part. *)
Definition route_matches (r : Route) (req : Request) : bool :=
  method_eqb (route_method r) (routed_method (method req))
  && (route_path r =? path req).

(** One request: the first matching route's handler runs on a fresh
    response object. *)
Definition handle (dbms : Database) (st : State) (req : Request) : Trace * State :=
  match find (fun r => route_matches r req) (routes st) with
  | Some r => exec dbms (route_handler r req new_response) st
  | None => ([EvNoRoute], st)
  end.

(** *** Conditional requests: the [fresh] package (0.5.2) *)

Fixpoint header_value (name : string) (hs : list (string * string)) : option string :=
  match hs with
  | [] => None
  | (n, v) :: rest => if (n =? name) then Some v else header_value name rest
  end.

Definition header (name : string) (req : Request) : option string :=
  header_value name (headers req).

(** A header that is there and not the empty string. *)
Definition present (h : option string) : bool :=
  match h with
  | Some v => negb (v =? "")
  | None => false
  end.

Definition header_is (h : option string) (v : string) : bool :=
  match h with
  | Some v' => (v' =? v)
  | None => false
  end.

Fixpoint split_on (sep : ascii) (s : string) : list string :=
  match s with
  | EmptyString => [EmptyString]
  | String c rest =>
      if Ascii.eqb c sep then EmptyString :: split_on sep rest
      else
        match split_on sep rest with
        | [] => [String c EmptyString]
        | seg :: segs => String c seg :: segs
        end
  end.

Fixpoint drop_leading (f : ascii -> bool) (s : string) : string :=
  match s with
  | EmptyString => EmptyString
  | String c rest => if f c then drop_leading f rest else s
  end.

Fixpoint drop_trailing (f : ascii -> bool) (s : string) : string :=
  match s with
  | EmptyString => EmptyString
  | String c rest =>
      let rest' := drop_trailing f rest in
      if f c && (rest' =? "") then EmptyString else String c rest'
  end.

Definition trim (f : ascii -> bool) (s : string) : string :=
  drop_trailing f (drop_leading f s).

Definition is_space (c : ascii) : bool := Ascii.eqb c (ascii_of_nat 32).

(** The characters of [\s] that a header value can hold. *)
Definition is_regexp_space (c : ascii) : bool :=
  let n := nat_of_ascii c in
  (((9 <=? n) && (n <=? 13)) || (n =? 32) || (n =? 160))%nat.

Definition comma : ascii := ascii_of_nat 44.

(** [parseTokenList]: the comma-separated tokens, spaces trimmed. *)
Definition parse_token_list (s : string) : list string :=
  map (trim is_space) (split_on comma s).

(** [/(?:^|,)\s*?no-cache\s*?(?:,|$)/.test(cacheControl)] *)
Definition no_cache (cache_control : string) : bool :=
  existsb (fun seg => trim is_regexp_space seg =? "no-cache")
    (split_on comma cache_control).

Definition etag_matches (etag tok : string) : bool :=
  (tok =? etag) || (tok =? "W/" ++ etag) || ("W/" ++ tok =? etag).

(** [fresh(req.headers, { etag, 'last-modified': undefined })]: the script
    sets no [Last-Modified], so a request with [If-Modified-Since] is
    never fresh. *)
Definition fresh (req : Request) (etag : option string) : bool :=
  let modified_since := header "if-modified-since" req in
  let none_match := header "if-none-match" req in
  let cache_control := header "cache-control" req in
  if negb (present modified_since) && negb (present none_match) then false
  else if present cache_control
          && no_cache (match cache_control with Some v => v | None => "" end)
  then false
  else if present none_match && negb (header_is none_match "*")
          && negb (match etag with
                   | Some e =>
                       negb (e =? "")
                       && existsb (etag_matches e)
                            (parse_token_list
                               (match none_match with Some v => v | None => "" end))
                   | None => false
                   end)
  then false
  else if present modified_since then false
  else true.

(** [req.fresh]: only for GET and HEAD, and for a 2xx or 304 status. *)
Definition req_fresh (req : Request) (status : Z) (etag : option string) : bool :=
  match method req with
  | GET | HEAD =>
      if (((200 <=? status) && (status <? 300)) || (status =? 304))%Z
      then fresh req etag
      else false
  | _ => false
  end.

(** *** [res.send] (express 4) *)

(** The body of a response.  [Json v] stands for [JSON.stringify(v)] and
    [StatusText code] for the standard message of a status code (nothing
    when the code has none); neither text is computed here. *)
Inductive Body : Type :=
| Text (s : string)
| Json (v : Js.value)
| StatusText (code : Z).

Record HttpResponse : Type := {
  http_status : Z;
  http_body : Body
}.

(** The ETag express computes for a body, if it computes one. *)
Definition EtagFn : Type := Body -> option string.

(** The chunk [res.send(v)] is about to write; [None] is [undefined]. *)
Definition chunk_of (v : Js.value) : option Body :=
  match v with
  | Js.Undefined => None
  | Js.Null => Some (Text "")
  | Js.Str s => Some (Text s)
  | Js.Num z => Some (StatusText z)
  | Js.Boolean _ | Js.Obj _ | Js.Arr _ => Some (Json v)
  end.

Definition etag_header (etag : EtagFn) (v : Js.value) : option string :=
  match chunk_of v with
  | Some b => etag b
  | None => None
  end.

(** The response [res.send(v)] writes, if [writeHead] does not throw:
    a fresh request gets 304; a 204 or 304 and a HEAD request get no
    body. *)
Definition sent (etag : EtagFn) (req : Request) (res : Response) (v : Js.value)
  : option HttpResponse :=
  match send_throws res v with
  | Some _ => None
  | None =>
      let status :=
        if req_fresh req (status_of_send res v) (etag_header etag v)
        then 304%Z else status_of_send res v in
      let chunk :=
        if ((status =? 204) || (status =? 304))%Z then Text ""
        else
          match chunk_of v with
          | Some b => b
          | None => Text ""
          end in
      Some {| http_status := to_int32 status;
              http_body := match method req with
                           | HEAD => Text ""
                           | _ => chunk
                           end |}
  end.

Definition is_send (e : Event) : bool :=
  match e with
  | EvSend _ _ => true
  | _ => false
  end.

Definition is_throw (e : Event) : bool :=
  match e with
  | EvThrow _ => true
  | _ => false
  end.

(** The response that answers [req], given the trace of its handling. *)
Fixpoint response_of (etag : EtagFn) (req : Request) (tr : Trace)
  : option HttpResponse :=
  match tr with
  | [] => None
  | EvSend res v :: _ => sent etag req res v
  | _ :: rest => response_of etag req rest
  end.

(** An exception nobody catches. *)
Definition uncaught (tr : Trace) : bool := existsb is_throw tr.

(** The queries a trace issued, in order. *)
Definition queries_of (tr : Trace) : list (Connection * string) :=
  flat_map (fun e => match e with EvQuery c sql => [(c, sql)] | _ => [] end) tr.

(** Loading the script. *)
Definition boot (env : Environ) (dbms : Database) : Trace * State :=
  exec dbms (main env) initial_state.

(** The requests of a run, each with the database as it is when the
    request arrives.  An uncaught exception ends the process. *)
Fixpoint serve (inputs : list (Request * Database)) (st : State)
  : list Trace * State :=
  match inputs with
  | [] => ([], st)
  | (req, dbms) :: rest =>
      let '(tr, st') := handle dbms st req in
      if uncaught tr then ([tr], st')
      else
        let '(trs, st'') := serve rest st' in
        (tr :: trs, st'')
  end.

(** The state of the script after loading and a run of requests. *)
Definition after (env : Environ) (dbms0 : Database)
  (inputs : list (Request * Database)) : State :=
  snd (serve inputs (snd (boot env dbms0))).

Definition get_root : Request :=
  {| method := GET; path := "/"; query := []; headers := []; body := "" |}.

(** The connection object bound to [db]: the first one created. *)
Definition db : Connection := 0%nat.

(** The route that [app.get('/', ...)] registers. *)
Definition root_route : Route :=
  {| route_method := GET; route_path := "/"; route_handler := handler db |}.

(** The state that loading the script reaches ([boot_loaded]). *)
Definition loaded_state : State :=
  {| connections := [db_config];
     connect_called := [];
     routes := [root_route];
     listening := Some PORT;
     console := ["Frontend running on http://localhost:3000"] |}.

(** The state once a query has been sent ([handle_script_state]). *)
Definition used_state : State := mark_connected db loaded_state.

(** The two states the script is ever in ([after_script_state]). *)
Definition script_state (st : State) : Prop :=
  st = loaded_state \/ st = used_state.

(** The events of [res.send(v)]. *)
Definition send_events (res : Response) (v : Js.value) : Trace :=
  match send_throws res v with
  | Some e => [EvSend res v; EvThrow e]
  | None => [EvSend res v]
  end.

(** The events of the query callback ([exec_query_callback]). *)
Definition callback_trace (res : Response) (err results : Js.value) : Trace :=
  if Js.truthy err then [EvThrow err]
  else
    match (row <- Js.get results (Js.Index 0) ;; Js.get row (Js.Name "message")) with
    | Js.Normal message => send_events res message
    | Js.Abrupt e => [EvThrow e]
    end.

(** The rows the database returns for [QUERY]. *)
Definition welcome_rows : Js.value :=
  Js.Arr [Js.Obj [("message", Js.Str WELCOME)]].



(** A database that answers every query with the same reply. *)
Definition always (r : Reply) : Database := fun _ _ => r.

Definition no_env : Environ := fun _ => None.

(** The error of a refused connection, as the [mysql] library reports it. *)
Definition econnrefused : Js.value :=
  Js.Obj [("code", Js.Str "ECONNREFUSED"); ("fatal", Js.Boolean true)].

(** A database that is up, and one that is down. *)
Definition db_up : Database := always (Js.Null, welcome_rows).
Definition db_down : Database := always (econnrefused, Js.Undefined).

(** The state of a loaded script, for the examples. *)
Definition sample_state : State := snd (boot no_env db_down).

(** A request for the root route that carries a query string, a header
    and a body. *)
Definition busy_request : Request :=
  {| method := GET; path := "/";
     query := [("name", "x")];
     headers := [("cookie", "session=1")];
     body := "ignored" |}.

(** The weak ETag of the welcome string: its length in hexadecimal and
    the first 27 characters of the base64 of its SHA-1. *)
Definition welcome_etag : string :=
  "W/" ++ dquote ++ "24-FiUQq5pzY/HnyNPuY/mBWfIpcAw" ++ dquote.

(** An ETag function for the examples: right for the welcome string, the
    one body they send. *)
Definition sample_etag : EtagFn :=
  fun b =>
    match b with
    | Text s => if (s =? WELCOME) then Some welcome_etag else None
    | _ => None
    end.





(** [undefined] or [null]: the values a property read throws on. *)
Definition nullish (v : Js.value) : bool :=
  match v with
  | Js.Undefined | Js.Null => true
  | _ => false
  end.

(** The trace of a request for the root route that is answered with the
    welcome string. *)
Definition welcome_trace : Trace :=
  [EvQuery db QUERY; EvSend new_response (Js.Str WELCOME)].

(** A request that succeeds: for the root route, with the database
    answering the query without an error. *)
Definition succeeds (i : Request * Database) : Prop :=
  method (fst i) = GET /\ path (fst i) = "/"
  /\ MySql.answers QUERY (snd i db QUERY)
  /\ Js.truthy (fst (snd i db QUERY)) = false.



(** * Properties *)

(** ** The database model *)

Lemma strip_prefix_app (p s r : string) :
  MySql.strip_prefix p s = Some r -> s = p ++ r.
Proof.
  revert s; induction p as [|a p IH]; intros s H; simpl in *.
  - now inversion H.
  - destruct s as [|b s]; [discriminate|].
    destruct (Ascii.eqb a b) eqn:E; [|discriminate].
    apply Ascii.eqb_eq in E; subst b.
    now rewrite (IH _ H).
Qed.

Lemma take_literal_app (s lit rest : string) :
  MySql.take_literal s = Some (lit, rest) -> s = lit ++ dquote ++ rest.
Proof.
  revert lit; induction s as [|c s IH]; intros lit H; simpl in *.
  - discriminate.
  - destruct (Ascii.eqb c (ascii_of_nat 34)) eqn:Eq.
    + apply Ascii.eqb_eq in Eq; inversion H; subst; reflexivity.
    + destruct (Ascii.eqb c (ascii_of_nat 92)); [discriminate|].
      destruct (MySql.take_literal s) as [[l r]|]; [|discriminate].
      inversion H; subst; simpl.
      now rewrite (IH l eq_refl).
Qed.

(** The parser accepts only texts of the form [SELECT "lit" AS alias]:
    no table is named. *)
Lemma parse_select_literal_form (sql lit alias : string) :
  MySql.parse_select_literal sql = Some (lit, alias) ->
  sql = "SELECT " ++ dquote ++ lit ++ dquote ++ " AS " ++ alias.
Proof.
  unfold MySql.parse_select_literal; intros H.
  destruct (MySql.strip_prefix "SELECT " sql) as [s1|] eqn:E1; [|discriminate].
  destruct (MySql.strip_prefix _ s1) as [s2|] eqn:E2; [|discriminate].
  destruct (MySql.take_literal s2) as [[l s3]|] eqn:E3; [|discriminate].
  destruct (MySql.strip_prefix " AS " s3) as [al|] eqn:E4; [|discriminate].
  destruct (MySql.is_identifier al); [|discriminate].
  inversion H; subst l al.
  apply strip_prefix_app in E1, E2, E4.
  apply take_literal_app in E3.
  now subst.
Qed.

Lemma parse_QUERY : MySql.parse_select_literal QUERY = Some (WELCOME, "message").
Proof. reflexivity. Qed.

Lemma select_QUERY : MySql.select_literal QUERY = Some welcome_rows.
Proof. reflexivity. Qed.

Lemma answers_QUERY (r : Reply) :
  MySql.answers QUERY r ->
  r = (Js.Null, welcome_rows) \/ exists fields, r = (Js.Obj fields, Js.Undefined).
Proof.
  intros [rows H|fields].
  - left. rewrite select_QUERY in H. now inversion H.
  - right. now exists fields.
Qed.

(** ** Loading and running *)

Lemma boot_loaded (env : Environ) (dbms : Database) :
  boot env dbms = ([], loaded_state).
Proof. reflexivity. Qed.

Lemma exec_query_callback (dbms : Database) (res : Response)
  (err results : Js.value) (st : State) :
  exec dbms (query_callback res err results) st
  = (callback_trace res err results, st).
Proof.
  unfold query_callback, callback_trace.
  destruct (Js.truthy err); [reflexivity|].
  destruct (Js.bind _ _) as [message|e]; [|reflexivity].
  cbn [exec]; unfold send_events.
  destruct (send_throws res message); reflexivity.
Qed.

Lemma exec_handler (dbms : Database) (c : Connection) (req : Request)
  (res : Response) (st : State) :
  exec dbms (handler c req res) st
  = (EvQuery c QUERY
       :: callback_trace res (fst (dbms c QUERY)) (snd (dbms c QUERY)),
     mark_connected c st).
Proof.
  unfold handler; cbn [exec].
  destruct (dbms c QUERY) as [err results].
  now rewrite exec_query_callback.
Qed.

Lemma handle_script (dbms : Database) (st : State) (req : Request) :
  script_state st ->
  handle dbms st req
  = if route_matches root_route req
    then (EvQuery db QUERY
            :: callback_trace new_response (fst (dbms db QUERY)) (snd (dbms db QUERY)),
          used_state)
    else ([EvNoRoute], st).
Proof.
  intros [->| ->]; unfold handle, used_state, loaded_state, mark_connected;
    cbn [routes find];
    (destruct (route_matches root_route req); [|reflexivity]);
    cbn [route_handler root_route]; apply exec_handler.
Qed.

Lemma root_matches (req : Request) :
  method req = GET -> path req = "/" -> route_matches root_route req = true.
Proof.
  intros Hm Hp; unfold route_matches; cbn [route_method route_path root_route].
  now rewrite Hm, Hp.
Qed.

Lemma handle_root (dbms : Database) (st : State) (req : Request) :
  script_state st ->
  method req = GET -> path req = "/" ->
  handle dbms st req
  = (EvQuery db QUERY
       :: callback_trace new_response (fst (dbms db QUERY)) (snd (dbms db QUERY)),
     used_state).
Proof.
  intros Hst Hm Hp. now rewrite (handle_script _ _ _ Hst), root_matches.
Qed.

Lemma loaded_script_state : script_state loaded_state.
Proof. now left. Qed.

Lemma handle_script_state (dbms : Database) (st : State) (req : Request) :
  script_state st -> script_state (snd (handle dbms st req)).
Proof.
  intros Hst. rewrite (handle_script _ _ _ Hst).
  destruct (route_matches root_route req); cbn [snd]; [now right|exact Hst].
Qed.

Lemma serve_script_state (inputs : list (Request * Database)) (st : State) :
  script_state st -> script_state (snd (serve inputs st)).
Proof.
  revert st; induction inputs as [|[req dbms] rest IH]; intros st Hst; [exact Hst|].
  cbn [serve].
  pose proof (handle_script_state dbms st req Hst) as Hs.
  destruct (handle dbms st req) as [tr st']; cbn [snd] in Hs.
  destruct (uncaught tr); [exact Hs|].
  specialize (IH st' Hs).
  destruct (serve rest st') as [trs st'']; exact IH.
Qed.

Lemma after_script_state (env : Environ) (dbms0 : Database)
  (inputs : list (Request * Database)) :
  script_state (after env dbms0 inputs).
Proof.
  unfold after. rewrite boot_loaded; cbn [snd].
  apply serve_script_state, loaded_script_state.
Qed.

Lemma script_state_fields (st : State) :
  script_state st ->
  connections st = [db_config] /\ routes st = [root_route]
  /\ listening st = Some PORT
  /\ console st = ["Frontend running on http://localhost:3000"].
Proof. intros [->| ->]; repeat split. Qed.

Lemma callback_trace_shape (res : Response) (err results : Js.value) :
  (exists v, callback_trace res err results = send_events res v
             /\ Js.truthy err = false)
  \/ (exists e, callback_trace res err results = [EvThrow e]).
Proof.
  unfold callback_trace.
  destruct (Js.truthy err); [right; eauto|].
  destruct (Js.bind _ _); [left|right]; eauto.
Qed.

Lemma send_events_queries (res : Response) (v : Js.value) :
  queries_of (send_events res v) = [].
Proof. unfold send_events; destruct (send_throws res v); reflexivity. Qed.

Lemma callback_trace_queries (res : Response) (err results : Js.value) :
  queries_of (callback_trace res err results) = [].
Proof.
  destruct (callback_trace_shape res err results) as [[v [-> _]]|[e ->]];
    [apply send_events_queries|reflexivity].
Qed.

Lemma callback_trace_failure (res : Response) (err results : Js.value) :
  Js.truthy err = true -> callback_trace res err results = [EvThrow err].
Proof. unfold callback_trace; now intros ->. Qed.

Lemma callback_trace_first_row (res : Response) (err : Js.value)
  (fields : list (string * Js.value)) (rest : list Js.value) :
  Js.truthy err = false ->
  callback_trace res err (Js.Arr (Js.Obj fields :: rest))
  = send_events res (Js.or_undefined (Js.lookup "message" fields)).
Proof. unfold callback_trace; now intros ->. Qed.


Lemma callback_trace_welcome (err : Js.value) :
  Js.truthy err = false ->
  callback_trace new_response err welcome_rows
  = [EvSend new_response (Js.Str WELCOME)].
Proof. unfold callback_trace; now intros ->. Qed.

Lemma handle_root_queries (dbms : Database) (st : State) (req : Request) :
  script_state st ->
  method req = GET -> path req = "/" ->
  queries_of (fst (handle dbms st req)) = [(db, QUERY)].
Proof.
  intros Hst Hm Hp. rewrite (handle_root _ _ _ Hst Hm Hp); cbn [fst].
  cbn [queries_of flat_map app].
  change (flat_map _ ?t) with (queries_of t).
  now rewrite callback_trace_queries.
Qed.

Lemma handle_script_queries (dbms : Database) (st : State) (req : Request) :
  script_state st ->
  Forall (fun q => q = (db, QUERY)) (queries_of (fst (handle dbms st req))).
Proof.
  intros Hst. rewrite (handle_script _ _ _ Hst).
  destruct (route_matches root_route req); cbn [fst].
  - cbn [queries_of flat_map app].
    change (flat_map _ ?t) with (queries_of t).
    rewrite callback_trace_queries. now constructor.
  - constructor.
Qed.

(** *** Conditional requests *)



(** ** The route [GET /] *)








(** C4. Loading the script creates exactly one connection object and
    does not connect it.  After any run of requests there is still that
    one object; every request [GET /] issues its query on it, whatever
    the database answers, and leaves it the only connection, connected by
    the first query and never closed.  Requests that are not routed
    issue no query. *)
Theorem single_connection_reused
  (env : Environ) (dbms0 : Database) (inputs : list (Request * Database))
  (dbms : Database) (req : Request) :
  method req = GET -> path req = "/" ->
  connections initial_state = []
  /\ connections (snd (boot env dbms0)) = [db_config]
  /\ connect_called (snd (boot env dbms0)) = []
  /\ connections (after env dbms0 inputs) = [db_config]
  /\ queries_of (fst (handle dbms (after env dbms0 inputs) req)) = [(db, QUERY)]
  /\ connections (snd (handle dbms (after env dbms0 inputs) req)) = [db_config]
  /\ connect_called (snd (handle dbms (after env dbms0 inputs) req)) = [db]
  /\ Forall (fun q => q = (db, QUERY))
       (flat_map queries_of (fst (serve inputs (snd (boot env dbms0))))).
Proof.
  intros Hm Hp.
  pose proof (after_script_state env dbms0 inputs) as Hst.
  split; [reflexivity|]. split; [reflexivity|]. split; [reflexivity|].
  split; [apply (script_state_fields _ Hst)|].
  split; [now apply handle_root_queries|].
  rewrite (handle_root dbms _ req Hst Hm Hp); cbn [snd].
  split; [reflexivity|]. split; [reflexivity|].
  rewrite boot_loaded; cbn [snd].
  clear. generalize loaded_script_state. generalize loaded_state as st.
  induction inputs as [|[r d] rest IH]; intros st Hst; [constructor|].
  cbn [serve].
  pose proof (handle_script_state d st r Hst) as Hs.
  pose proof (handle_script_queries d st r Hst) as Hq.
  destruct (handle d st r) as [tr st']; cbn [fst snd] in Hs, Hq.
  destruct (uncaught tr).
  - cbn [fst flat_map]. now rewrite app_nil_r.
  - specialize (IH st' Hs).
    destruct (serve rest st') as [trs st'']; cbn [fst flat_map] in *.
    apply Forall_app; split; assumption.
Qed.

Lemma single_connection_reused_witness :
  method get_root = GET /\ path get_root = "/"
  /\ queries_of (fst (handle db_up
                        (after no_env db_down [(busy_request, db_up); (get_root, db_up)])
                        get_root))
     = [(db, QUERY)]
  /\ connect_called (snd (handle db_up
                        (after no_env db_down [(busy_request, db_up); (get_root, db_up)])
                        get_root))
     = [db].
Proof.
  do 2 (split; [reflexivity|]).
  destruct (single_connection_reused no_env db_down
              [(busy_request, db_up); (get_root, db_up)] db_up get_root
              eq_refl eq_refl)
    as (_ & _ & _ & _ & Hq & _ & Hc & _).
  split; [exact Hq|exact Hc].
Defined.

(** C5. The port the script listens on is the constant 3000, whatever the
    environment variables and whatever requests are served. *)
Theorem listens_on_fixed_port
  (env : Environ) (dbms0 : Database) (inputs : list (Request * Database)) :
  PORT = 3000%Z
  /\ listening (snd (boot env dbms0)) = Some 3000%Z
  /\ listening (snd (serve inputs (snd (boot env dbms0)))) = Some 3000%Z.
Proof.
  split; [reflexivity|]. split; [reflexivity|].
  apply (script_state_fields _ (after_script_state env dbms0 inputs)).
Qed.

(** C6. The connection is created with host "db", user "myuser", password
    "mypassword" and database "mydb", whatever the environment variables:
    the parameters are the same on every run. *)
Theorem connection_parameters_hardcoded
  (env env' : Environ) (dbms0 dbms0' : Database) :
  connections (snd (boot env dbms0))
  = [{| host := "db"; user := "myuser";
        password := "mypassword"; database := "mydb" |}]
  /\ connections (snd (boot env dbms0)) = connections (snd (boot env' dbms0')).
Proof.
  rewrite !boot_loaded; split; reflexivity.
Qed.




(** C8. The success branch reads [results[0].message] with no guard.
    With a falsy error and an empty result set, [results[0]] is
    [undefined], the read of [message] throws a TypeError and no response
    is written; with a first row that has a string in its [message]
    field, that string is sent. *)
Theorem unguarded_first_row
  (etag : EtagFn) (env : Environ) (dbms0 : Database) (req : Request)
  (err : Js.value) :
  method req = GET -> path req = "/" ->
  Js.truthy err = false ->
  Js.get (Js.Arr []) (Js.Index 0) = Js.Normal Js.Undefined
  /\ fst (handle (always (err, Js.Arr [])) (snd (boot env dbms0)) req)
     = [EvQuery db QUERY; EvThrow Js.TypeError]
  /\ response_of etag req
       (fst (handle (always (err, Js.Arr [])) (snd (boot env dbms0)) req))
     = None
  /\ (forall fields rest s,
        Js.lookup "message" fields = Some (Js.Str s) ->
        fst (handle (always (err, Js.Arr (Js.Obj fields :: rest)))
               (snd (boot env dbms0)) req)
        = [EvQuery db QUERY; EvSend new_response (Js.Str s)]).
Proof.
  intros Hm Hp Herr.
  rewrite boot_loaded; cbn [snd].
  split; [reflexivity|].
  rewrite (handle_root _ _ req loaded_script_state Hm Hp); cbn [fst snd always].
  unfold callback_trace at 1 2; rewrite Herr.
  split; [reflexivity|].
  split; [reflexivity|].
  intros fields rest s Hl.
  rewrite (handle_root _ _ req loaded_script_state Hm Hp); cbn [fst snd always].
  now rewrite (callback_trace_first_row _ _ _ _ Herr), Hl.
Qed.

Lemma unguarded_first_row_witness :
  method get_root = GET /\ path get_root = "/" /\ Js.truthy Js.Null = false
  /\ fst (handle (always (Js.Null, Js.Arr [])) sample_state get_root)
     = [EvQuery db QUERY; EvThrow Js.TypeError]
  /\ fst (handle (always (Js.Null, Js.Arr [Js.Obj [("message", Js.Str "hi")]]))
            sample_state get_root)
     = [EvQuery db QUERY; EvSend new_response (Js.Str "hi")].
Proof.
  do 3 (split; [reflexivity|]).
  destruct (unguarded_first_row sample_etag no_env db_down get_root Js.Null
              eq_refl eq_refl eq_refl) as (_ & Hempty & _ & Hrow).
  split; [exact Hempty|].
  apply Hrow; reflexivity.
Defined.




(** C10 (as amended). Handling a request, whatever the request and
    whatever the database answers, leaves the connections and their
    parameters, the routes, the port and the console as they were.  The
    one thing it can change is the connection's state: the first query
    connects it.  Once the connection has been connected, handling a
    request leaves the whole state unchanged.  The only statement sent is
    [QUERY], a [SELECT] of a string literal that names no table. *)
Theorem request_leaves_state_unchanged
  (env : Environ) (dbms0 : Database) (inputs : list (Request * Database))
  (dbms : Database) (req : Request) :
  connections (snd (handle dbms (after env dbms0 inputs) req))
  = connections (after env dbms0 inputs)
  /\ routes (snd (handle dbms (after env dbms0 inputs) req))
     = routes (after env dbms0 inputs)
  /\ listening (snd (handle dbms (after env dbms0 inputs) req))
     = listening (after env dbms0 inputs)
  /\ console (snd (handle dbms (after env dbms0 inputs) req))
     = console (after env dbms0 inputs)
  /\ (connect_called (after env dbms0 inputs) = [db] ->
      snd (handle dbms (after env dbms0 inputs) req) = after env dbms0 inputs)
  /\ (route_matches root_route req = false ->
      snd (handle dbms (after env dbms0 inputs) req) = after env dbms0 inputs)
  /\ Forall (fun q => q = (db, QUERY))
       (queries_of (fst (handle dbms (after env dbms0 inputs) req)))
  /\ MySql.parse_select_literal QUERY = Some (WELCOME, "message")
  /\ QUERY = "SELECT " ++ dquote ++ WELCOME ++ dquote ++ " AS " ++ "message".
Proof.
  pose proof (after_script_state env dbms0 inputs) as Hst.
  pose proof (handle_script_state dbms _ req Hst) as Hst'.
  pose proof (script_state_fields _ Hst) as (Hc & Hr & Hl & Ho).
  pose proof (script_state_fields _ Hst') as (Hc' & Hr' & Hl' & Ho').
  rewrite Hc, Hr, Hl, Ho, Hc', Hr', Hl', Ho'.
  do 4 (split; [reflexivity|]).
  split; [|split; [|split; [now apply handle_script_queries|split; reflexivity]]].
  - intros Hcc. rewrite (handle_script _ _ _ Hst).
    destruct (route_matches root_route req); cbn [snd]; [|reflexivity].
    destruct Hst as [E|E]; rewrite E in *; [discriminate Hcc|reflexivity].
  - intros Hno. now rewrite (handle_script _ _ _ Hst), Hno.
Qed.

Lemma request_leaves_state_unchanged_witness :
  connect_called (after no_env db_down [(get_root, db_up)]) = [db]
  /\ snd (handle db_up (after no_env db_down [(get_root, db_up)]) busy_request)
     = after no_env db_down [(get_root, db_up)].
Proof.
  split; [reflexivity|].
  destruct (request_leaves_state_unchanged no_env db_down [(get_root, db_up)]
              db_up busy_request) as (_ & _ & _ & _ & H & _).
  apply H; reflexivity.
Defined.

(** C10, as first stated, fails: the first request connects the
    connection, so the state after it is not the state before it. *)
Lemma first_request_connects :
  connect_called (snd (boot no_env db_down)) = []
  /\ connect_called (snd (handle db_up (snd (boot no_env db_down)) get_root)) = [db]
  /\ snd (handle db_up (snd (boot no_env db_down)) get_root)
     <> snd (boot no_env db_down).
Proof.
  split; [reflexivity|]. split; [reflexivity|].
  intros H. apply (f_equal connect_called) in H. discriminate H.
Qed.

(** * Further properties of the script *)

(** ** Property reads in the callback *)

Lemma get_index_nullish (v : Js.value) (n : nat) :
  nullish v = true -> Js.get v (Js.Index n) = Js.Abrupt Js.TypeError.
Proof. destruct v; cbn; intros H; try discriminate H; reflexivity. Qed.

Lemma get_index_normal (v : Js.value) (n : nat) :
  nullish v = false -> exists row, Js.get v (Js.Index n) = Js.Normal row.
Proof. destruct v; cbn; intros H; try discriminate H; eauto. Qed.

Lemma get_message_nullish (v : Js.value) :
  nullish v = true -> Js.get v (Js.Name "message") = Js.Abrupt Js.TypeError.
Proof. destruct v; cbn; intros H; try discriminate H; reflexivity. Qed.

Lemma get_message_normal (v : Js.value) :
  nullish v = false -> exists m, Js.get v (Js.Name "message") = Js.Normal m.
Proof. destruct v; cbn; intros H; try discriminate H; eauto. Qed.

(** The success branch, case by case. *)
Lemma callback_trace_cases (res : Response) (err results : Js.value) :
  Js.truthy err = false ->
  (nullish results = true
   /\ callback_trace res err results = [EvThrow Js.TypeError])
  \/ (exists row, Js.get results (Js.Index 0) = Js.Normal row
      /\ nullish row = true
      /\ callback_trace res err results = [EvThrow Js.TypeError])
  \/ (exists row m, Js.get results (Js.Index 0) = Js.Normal row
      /\ nullish row = false
      /\ Js.get row (Js.Name "message") = Js.Normal m
      /\ callback_trace res err results = send_events res m).
Proof.
  intros Herr. unfold callback_trace; rewrite Herr.
  destruct (nullish results) eqn:Hn.
  - left. split; [reflexivity|].
    now rewrite (get_index_nullish results 0 Hn).
  - right. destruct (get_index_normal results 0 Hn) as [row Hrow].
    rewrite Hrow; cbn [Js.bind].
    destruct (nullish row) eqn:Hr.
    + left. exists row. rewrite (get_message_nullish row Hr). auto.
    + right. destruct (get_message_normal row Hr) as [m Hm].
      exists row, m. rewrite Hm. auto.
Qed.

Lemma send_throws_range (res : Response) (v e : Js.value) :
  send_throws res v = Some e -> e = RangeError.
Proof.
  unfold send_throws.
  destruct (_ || _)%bool; intros H; [now inversion H|discriminate H].
Qed.

Lemma send_events_has_send (res : Response) (v : Js.value) :
  existsb is_send (send_events res v) = true.
Proof. unfold send_events; destruct (send_throws res v); reflexivity. Qed.

(** X2. The callback lets only three values escape: the error it was
    given, when that error is truthy; a TypeError from the unguarded
    read, in which case [res.send] was not called; or the RangeError that
    [res.send] raises for a status code outside 100..999 (a numeric
    [message], which express 4 takes as the status code). *)
Theorem thrown_value_classified
  (dbms : Database) (res : Response) (err results e : Js.value) (st : State) :
  In (EvThrow e) (fst (exec dbms (query_callback res err results) st)) ->
  (Js.truthy err = true /\ e = err)
  \/ (Js.truthy err = false /\ e = Js.TypeError
      /\ fst (exec dbms (query_callback res err results) st) = [EvThrow Js.TypeError])
  \/ (Js.truthy err = false /\ e = RangeError
      /\ exists v, send_throws res v = Some RangeError
                   /\ fst (exec dbms (query_callback res err results) st)
                      = [EvSend res v; EvThrow RangeError]).
Proof.
  rewrite exec_query_callback; cbn [fst].
  intros Hin.
  destruct (Js.truthy err) eqn:Herr.
  - rewrite (callback_trace_failure res err results Herr) in Hin.
    destruct Hin as [H|[]]. inversion H. now left.
  - right.
    destruct (callback_trace_cases res err results Herr)
      as [[_ Ht]|[(row & _ & _ & Ht)|(row & m & _ & _ & _ & Ht)]];
      rewrite Ht in *.
    + destruct Hin as [H|[]]. inversion H. now left.
    + destruct Hin as [H|[]]. inversion H. now left.
    + unfold send_events in *. destruct (send_throws res m) as [e'|] eqn:Hs.
      * pose proof (send_throws_range _ _ _ Hs) as He; subst e'.
        destruct Hin as [H|[H|[]]]; [discriminate H|]. inversion H.
        right. repeat split. exists m. now split.
      * destruct Hin as [H|[]]. discriminate H.
Qed.

Lemma thrown_value_classified_witness :
  In (EvThrow RangeError)
     (fst (exec db_up (query_callback new_response Js.Null
                         (Js.Arr [Js.Obj [("message", Js.Num 7)]])) sample_state))
  /\ fst (exec db_up (query_callback new_response Js.Null
                        (Js.Arr [Js.Obj [("message", Js.Num 7)]])) sample_state)
     = [EvSend new_response (Js.Num 7); EvThrow RangeError].
Proof.
  assert (H : In (EvThrow RangeError)
     (fst (exec db_up (query_callback new_response Js.Null
                         (Js.Arr [Js.Obj [("message", Js.Num 7)]])) sample_state)))
    by (right; left; reflexivity).
  split; [exact H|].
  destruct (thrown_value_classified db_up new_response Js.Null
              (Js.Arr [Js.Obj [("message", Js.Num 7)]]) RangeError sample_state H)
    as [[Hf _]|[(_ & He & _)|(_ & _ & v & _ & Ht)]].
  - discriminate Hf.
  - discriminate He.
  - reflexivity.
Defined.

(** X3. With a falsy error, [res.send] is reached exactly when there is
    a first row to read from: it is not called when the results are
    [undefined] or [null] or when [results[0]] is [undefined] or [null],
    and then the callback throws a TypeError; in every other case it is
    called. *)
Theorem send_reached_exactly_with_first_row
  (dbms : Database) (res : Response) (err results : Js.value) (st : State) :
  Js.truthy err = false ->
  (existsb is_send (fst (exec dbms (query_callback res err results) st)) = false
   <-> (nullish results = true
        \/ exists row, Js.get results (Js.Index 0) = Js.Normal row
                       /\ nullish row = true))
  /\ (existsb is_send (fst (exec dbms (query_callback res err results) st)) = false ->
      fst (exec dbms (query_callback res err results) st) = [EvThrow Js.TypeError]).
Proof.
  intros Herr. rewrite exec_query_callback; cbn [fst].
  destruct (callback_trace_cases res err results Herr)
    as [[Hn Ht]|[(row & Hrow & Hn & Ht)|(row & m & Hrow & Hn & _ & Ht)]];
    rewrite Ht.
  - split; [split; auto|auto].
  - split; [split; eauto|auto].
  - rewrite send_events_has_send. split; [split|]; try discriminate.
    intros [Hr|(row' & Hrow' & Hn')].
    + rewrite (get_index_nullish results 0 Hr) in Hrow. discriminate Hrow.
    + rewrite Hrow in Hrow'. inversion Hrow'; subst row'.
      rewrite Hn in Hn'. discriminate Hn'.
Qed.

Lemma send_reached_exactly_with_first_row_witness :
  Js.truthy Js.Null = false
  /\ fst (exec db_up (query_callback new_response Js.Null (Js.Arr [Js.Null]))
            sample_state)
     = [EvThrow Js.TypeError].
Proof.
  split; [reflexivity|].
  destruct (send_reached_exactly_with_first_row db_up new_response Js.Null
              (Js.Arr [Js.Null]) sample_state eq_refl) as [_ H].
  apply H; reflexivity.
Defined.





(** X6. Of a result set the callback reads only the [message] column of
    the first row: the other rows and the other columns do not change
    what it does. *)
Theorem reads_only_first_message
  (dbms : Database) (res : Response) (err : Js.value)
  (fields1 fields2 : list (string * Js.value)) (rest1 rest2 : list Js.value)
  (st : State) :
  Js.lookup "message" fields1 = Js.lookup "message" fields2 ->
  exec dbms (query_callback res err (Js.Arr (Js.Obj fields1 :: rest1))) st
  = exec dbms (query_callback res err (Js.Arr (Js.Obj fields2 :: rest2))) st.
Proof.
  intros Hl. rewrite !exec_query_callback.
  destruct (Js.truthy err) eqn:Herr.
  - now rewrite !callback_trace_failure.
  - now rewrite !callback_trace_first_row, Hl.
Qed.

Lemma reads_only_first_message_witness :
  Js.lookup "message" [("message", Js.Str "a")]
  = Js.lookup "message" [("id", Js.Num 1); ("message", Js.Str "a")]
  /\ exec db_up (query_callback new_response Js.Null
                   (Js.Arr [Js.Obj [("message", Js.Str "a")]])) sample_state
     = exec db_up (query_callback new_response Js.Null
                     (Js.Arr [Js.Obj [("id", Js.Num 1); ("message", Js.Str "a")];
                              Js.Obj [("message", Js.Str "b")]])) sample_state.
Proof.
  split; [reflexivity|].
  apply (reads_only_first_message db_up new_response Js.Null
           [("message", Js.Str "a")] [("id", Js.Num 1); ("message", Js.Str "a")]
           [] [Js.Obj [("message", Js.Str "b")]] sample_state).
  reflexivity.
Defined.

(** ** Routing and loading *)



(** X8. Loading the script touches the database not at all: whatever the
    database would answer, and whatever the environment variables, no
    query is issued and nothing is thrown.  It registers the single route
    [GET /] and writes one line to the console, which names the port the
    script listens on. *)
Theorem loading_is_quiet (env : Environ) (dbms : Database) :
  fst (boot env dbms) = []
  /\ map (fun r => (route_method r, route_path r)) (routes (snd (boot env dbms)))
     = [(GET, "/")]
  /\ exists port,
       listening (snd (boot env dbms)) = Some port
       /\ console (snd (boot env dbms))
          = ["Frontend running on http://localhost:" ++ Js.number_to_string port].
Proof.
  rewrite boot_loaded; cbn [fst snd].
  split; [reflexivity|]. split; [reflexivity|].
  exists PORT. split; reflexivity.
Qed.

(** ** Sequences of requests *)

Lemma handle_succeeds (i : Request * Database) (st : State) :
  script_state st ->
  succeeds i -> handle (snd i) st (fst i) = (welcome_trace, used_state).
Proof.
  intros Hst (Hm & Hp & Hans & Hf).
  rewrite (handle_root _ _ _ Hst Hm Hp).
  destruct (answers_QUERY _ Hans) as [E|[fields E]]; rewrite E in *;
    [|discriminate Hf].
  cbn [fst snd]. now rewrite callback_trace_welcome.
Qed.

(** X9. The script keeps serving as long as the queries succeed: when
    every request of a run is for the root route and is answered by the
    database without an error, each one gets the welcome string, one
    trace per request, in order. *)
Theorem serve_successes
  (env : Environ) (dbms0 : Database) (inputs : list (Request * Database)) :
  Forall succeeds inputs ->
  fst (serve inputs (snd (boot env dbms0))) = map (fun _ => welcome_trace) inputs
  /\ List.length (fst (serve inputs (snd (boot env dbms0)))) = List.length inputs.
Proof.
  rewrite boot_loaded; cbn [snd].
  intros Hall.
  assert (H : forall st, script_state st ->
                fst (serve inputs st) = map (fun _ => welcome_trace) inputs).
  { induction Hall as [|[req dbms] rest Hi _ IH]; intros st Hst; [reflexivity|].
    pose proof (handle_succeeds _ st Hst Hi) as Ht; cbn [fst snd] in Ht.
    cbn [serve]. rewrite Ht.
    cbn [uncaught existsb welcome_trace is_throw orb map].
    specialize (IH used_state (or_intror eq_refl)).
    destruct (serve rest used_state) as [trs st'']; cbn [fst] in *.
    now rewrite IH. }
  split; [exact (H _ loaded_script_state)|].
  now rewrite (H _ loaded_script_state), length_map.
Qed.

Lemma serve_successes_witness :
  Forall succeeds [(get_root, db_up); (busy_request, db_up)]
  /\ fst (serve [(get_root, db_up); (busy_request, db_up)]
            (snd (boot no_env db_down)))
     = [welcome_trace; welcome_trace].
Proof.
  assert (Hs : forall r, method r = GET -> path r = "/" -> succeeds (r, db_up)).
  { intros r Hm Hp. repeat split; try assumption.
    apply MySql.answer_rows. reflexivity. }
  assert (H : Forall succeeds [(get_root, db_up); (busy_request, db_up)]).
  { constructor; [apply Hs; reflexivity|].
    constructor; [apply Hs; reflexivity|constructor]. }
  split; [exact H|].
  exact (proj1 (serve_successes no_env db_down _ H)).
Defined.
